(** * chatty-backend: error taxonomy, error dispatch and server bootstrap

    A shallow embedding of
      - [shared/globals/helpers/error-handler.ts]: the abstract class
        [CustomError], its six subclasses and [serializeErrors];
      - [setupServer.ts]: the class [ChattyServer] ([start], the four wiring
        methods, [startServer], [createSocketIO], [startHttpServer],
        [socketIOConnection]) and the two handlers registered by
        [globalErrorHandler].

    JavaScript evaluation is modelled by a small monad [M]: a computation
    yields the sequence of observable effects it performed (log lines,
    registrations on the Express application, calls on the response object,
    calls on the socket.io and redis objects) together with its completion
    (normal return, a thrown value, or an [await] that is never resumed).

    Express's walk of the application's stack is modelled by [handle]; the
    stack is [app_stack]: the seven third-party middleware, of which [cors]
    is modelled with the options the code gives it, then the routes, then
    the two handlers of [globalErrorHandler]. *)

From Stdlib Require Import String ZArith List Bool Lia DecimalString.
Import ListNotations.
Local Open Scope string_scope.
Local Open Scope Z_scope.
Local Open Scope list_scope.

(** ** Constants of the package [http-status-codes] used by the sources *)

Module HTTP_STATUS.
Definition BAD_REQUEST : Z := 400.
Definition UNAUTHORIZED : Z := 401.
Definition NOT_FOUND : Z := 404.
Definition REQUEST_TOO_LONG : Z := 413.
Definition SERVICE_UNAVAILABLE : Z := 503.
End HTTP_STATUS.

(** ** error-handler.ts *)

(** [interface IError] *)
Record IError : Type := mkIError {
  ie_message : string;
  ie_statusCode : Z;
  ie_status : string
}.

(** The concrete classes that extend [CustomError]. *)
Inductive ErrorClass : Type :=
| BadRequestError
| NotFoundError
| NotAuthorizedError
| FileTooLargeError
| ServerError
| JoinValidationError.

(** An instance of (a subclass of) [CustomError]: the class it was built
    from, the [message] stored by [Error]'s constructor, and the two instance
    fields [statusCode] and [status] that every subclass initialises. *)
Record CustomError : Type := mkCustomError {
  class_of : ErrorClass;
  message : string;
  statusCode : Z;
  status : string
}.

(** A value that can be thrown: an instance of [CustomError]; any other
    value that Express takes for a failure (a plain [Error], a non-empty
    string, ...), of which only a description is kept; or one of the values
    that Express does not take for a failure: the strings ['route'] and
    ['router'], which are control signals of its router, and the falsy
    values ([undefined], [null], [false], [0], [NaN], ['']). *)
Inductive thrown : Type :=
| InstanceOfCustomError (e : CustomError)
| OtherValue (description : string)
| RouteSignal
| RouterSignal
| FalsyValue.

(** ** JSON values written by [res.json] *)

(** Only flat objects with string and number members are ever written; the
    members keep the order in which the object literal lists them. *)
Inductive json_value : Type :=
| JString (s : string)
| JNumber (n : Z).

Definition json : Type := list (string * json_value).

Definition IError_to_json (o : IError) : json :=
  [("message", JString (ie_message o));
   ("statusCode", JNumber (ie_statusCode o));
   ("status", JString (ie_status o))].

(** ** Configuration and the objects of the bootstrap *)

(** The fields of [config] read by [setupServer.ts]; they come from the
    environment and may be undefined. *)
Record Config : Type := mkConfig {
  SECRET_KEY_ONE : option string;
  SECRET_KEY_TWO : option string;
  NODE_ENV : option string;
  CLIENT_URL : option string;
  REDIS_HOST : option string
}.

Record CookieSessionOptions : Type := mkCookieSessionOptions {
  cs_name : string;
  cs_keys : list (option string);
  cs_maxAge : Z;
  cs_secure : bool
}.

Record CorsOptions : Type := mkCorsOptions {
  cors_origin : option string;
  cors_credentials : option bool;
  cors_optionsSuccessStatus : option Z;
  cors_methods : list string
}.

(** The third-party middleware handed to [app.use]. *)
Inductive middleware : Type :=
| cookieSession (o : CookieSessionOptions)
| hpp
| helmet
| cors (o : CorsOptions)
| compression
| json_parser (limit : string)
| urlencoded (extended : bool) (limit : string).

(** The two redis clients of [createSocketIO]. *)
Inductive client : Type := pubClient | subClient.

(** ** Observable effects *)

Inductive event : Type :=
(* the logger *)
| log_error (v : thrown)
| log_info (line : string)
(* registrations on the Express application *)
| app_use (m : middleware)
| applicationRoutes_call
| app_all_star
| app_use_error_handler
(* the response object and the continuation of a handler *)
| res_status (code : Z)
| res_json (body : json)
| res_end
| next_call
| finalhandler (pending : option thrown)
(* http, socket.io and redis *)
| new_http_Server
| new_socketio_Server (o : CorsOptions)
| createClient (url : option string)
| duplicate_client
| connect_call (c : client)
| io_adapter
| httpServer_listen (port : Z)
| socketIOConnection_call.

(** ** The monad of effects and completions *)

Inductive completion (A : Type) : Type :=
| Return (a : A)
| Throw (v : thrown)
| Suspended.

Arguments Return {A} a.
Arguments Throw {A} v.
Arguments Suspended {A}.

Definition M (A : Type) : Type := (list event * completion A)%type.

Definition ret {A} (a : A) : M A := ([], Return a).

Definition bind {A B} (m : M A) (k : A -> M B) : M B :=
  match m with
  | (tr, Return a) => let (tr', c) := k a in (tr ++ tr', c)
  | (tr, Throw v) => (tr, Throw v)
  | (tr, Suspended) => (tr, Suspended)
  end.

Definition emit (e : event) : M unit := ([e], Return tt).

Definition throw {A} (v : thrown) : M A := ([], Throw v).

(** [try { body } catch (error) { handler error }] *)
Definition try_catch {A} (body : M A) (handler : thrown -> M A) : M A :=
  match body with
  | (tr, Throw v) => let (tr', c) := handler v in (tr ++ tr', c)
  | other => other
  end.

Definition trace {A} (m : M A) : list event := fst m.
Definition result {A} (m : M A) : completion A := snd m.

Notation "x <- c1 ;; c2" := (bind c1 (fun x => c2))
  (at level 61, c1 at next level, right associativity).
Notation "c1 ;; c2" := (bind c1 (fun _ => c2))
  (at level 61, right associativity).

(** ** The classes of error-handler.ts, continued *)

(** [CustomError.constructor]: [super(message)] stores the message. The
    field initialisers of the subclass then set [statusCode] and [status]. *)
Definition statusCode_initialiser (k : ErrorClass) : Z :=
  match k with
  | BadRequestError => HTTP_STATUS.BAD_REQUEST
  | NotFoundError => HTTP_STATUS.NOT_FOUND
  | NotAuthorizedError => HTTP_STATUS.UNAUTHORIZED
  | FileTooLargeError => HTTP_STATUS.REQUEST_TOO_LONG
  | ServerError => HTTP_STATUS.SERVICE_UNAVAILABLE
  | JoinValidationError => HTTP_STATUS.SERVICE_UNAVAILABLE
  end.

Definition status_initialiser (k : ErrorClass) : string :=
  match k with
  | BadRequestError => "error"
  | NotFoundError => "error"
  | NotAuthorizedError => "error"
  | FileTooLargeError => "error"
  | ServerError => "error"
  | JoinValidationError => "error"
  end.

(** [new K(message)] for a subclass [K]. *)
Definition new_ (k : ErrorClass) (msg : string) : M CustomError :=
  ret {| class_of := k;
         message := msg;
         statusCode := statusCode_initialiser k;
         status := status_initialiser k |}.

(** [CustomError.serializeErrors] *)
Definition serializeErrors (this : CustomError) : M IError :=
  ret {| ie_message := message this;
         ie_statusCode := statusCode this;
         ie_status := status this |}.

(** ** Express: requests, layers and the router

    The part of Express that the two handlers of [globalErrorHandler] rely
    on: the application keeps a stack of layers in registration order; a
    request walks the stack; a route layer runs when no failure is pending
    and its method and path accept the request; an error-handling layer (a
    handler of four parameters) runs only when a failure is pending; a
    handler that throws hands its failure on, a handler that calls [next()]
    hands the request on, and any other handler ends the walk. When the stack
    is exhausted Express's own final handler takes over. A thrown value is a
    failure unless it is ['route'] or falsy, in which case the walk goes on
    with no failure pending, or ['router'], in which case the walk leaves the
    stack at once. *)

Inductive Method : Type :=
| GET | POST | PUT | DELETE | OPTIONS | PATCH | HEAD
| OtherMethod (name : string).

Record Request : Type := mkRequest {
  req_method : Method;
  req_originalUrl : string;
  req_path : string
}.

Definition Method_eqb (a b : Method) : bool :=
  match a, b with
  | GET, GET | POST, POST | PUT, PUT | DELETE, DELETE
  | OPTIONS, OPTIONS | PATCH, PATCH | HEAD, HEAD => true
  | OtherMethod x, OtherMethod y => String.eqb x y
  | _, _ => false
  end.

(** The path of a route: ['*'], a literal path, or any other pattern, given
    by the set of paths it accepts. *)
Inductive PathPattern : Type :=
| Star
| Literal (p : string)
| Pattern (accepts : string -> bool).

Definition path_matches (p : PathPattern) (path : string) : bool :=
  match p with
  | Star => true
  | Literal s => String.eqb s path
  | Pattern accepts => accepts path
  end.

Inductive Layer : Type :=
(* [app.METHOD(path, handler)]; [app.all(path, handler)] has no method *)
| Route (m : option Method) (p : PathPattern) (handler : Request -> M unit)
(* [app.use((error, req, res, next) => ...)] *)
| ErrorHandler (handler : thrown -> Request -> M unit).

Definition route_matches (m : option Method) (p : PathPattern)
    (req : Request) : bool :=
  match m with
  | None => path_matches p (req_path req)
  | Some m' => Method_eqb m' (req_method req) && path_matches p (req_path req)
  end.

(** Whether a layer takes a request on which no failure is pending. *)
Definition layer_accepts (l : Layer) (req : Request) : bool :=
  match l with
  | Route m p _ => route_matches m p req
  | ErrorHandler _ => false
  end.

Definition is_route (l : Layer) : bool :=
  match l with Route _ _ _ => true | ErrorHandler _ => false end.

Definition is_next_call (e : event) : bool :=
  match e with next_call => true | _ => false end.

Fixpoint handle (stack : list Layer) (pending : option thrown)
    (req : Request) : list event :=
  match stack with
  | [] => [finalhandler pending]
  | l :: rest =>
      let continue (m : M unit) : list event :=
        match m with
        | (tr, Throw v) =>
            match v with
            | InstanceOfCustomError _ | OtherValue _ =>
                tr ++ handle rest (Some v) req
            | RouteSignal | FalsyValue => tr ++ handle rest None req
            | RouterSignal => tr ++ [finalhandler None]
            end
        | (tr, Suspended) => tr
        | (tr, Return _) =>
            if existsb is_next_call tr then tr ++ handle rest None req
            else tr
        end in
      match l, pending with
      | Route m p h, None =>
          if route_matches m p req then continue (h req)
          else handle rest None req
      | Route _ _ _, Some _ => handle rest pending req
      | ErrorHandler h, Some v => continue (h v req)
      | ErrorHandler _, None => handle rest None req
      end
  end.

(** The response a trace sends: the body of the first [res.json], with the
    status set before it (200 when none was set); none once the response has
    been ended without a body. *)
Record Response : Type := mkResponse {
  resp_status : Z;
  resp_body : json
}.

Fixpoint sent_response_from (current : Z) (tr : list event)
    : option Response :=
  match tr with
  | [] => None
  | res_status code :: tr' => sent_response_from code tr'
  | res_json body :: _ => Some {| resp_status := current; resp_body := body |}
  | res_end :: _ => None
  | _ :: tr' => sent_response_from current tr'
  end.

Definition sent_response (tr : list event) : option Response :=
  sent_response_from 200 tr.

Definition touches_response (e : event) : bool :=
  match e with
  | res_status _ | res_json _ | res_end => true
  | _ => false
  end.

(** ** setupServer.ts: the handlers of [globalErrorHandler] *)

(** [(req, res) => { res.status(HTTP_STATUS.NOT_FOUND).json({ message:
    `${req.originalUrl} not found` }); }] *)
Definition route_miss_handler (req : Request) : M unit :=
  emit (res_status HTTP_STATUS.NOT_FOUND) ;;
  emit (res_json [("message", JString (req_originalUrl req ++ " not found"))]).

(** [(error, _req, res, next) => { log.error(error); if (error instanceof
    CustomError) { return res.status(error.statusCode)
    .json(error.serializeErrors()); } next(); }] *)
Definition error_interceptor (error : thrown) (_req : Request) : M unit :=
  emit (log_error error) ;;
  match error with
  | InstanceOfCustomError e => (* error instanceof CustomError *)
      emit (res_status (statusCode e)) ;;
      body <- serializeErrors e ;;
      emit (res_json (IError_to_json body))
  | _ =>
      emit next_call
  end.

(** The two layers that [globalErrorHandler] appends to the application, in
    the order of registration. *)
Definition globalErrorHandler_layers : list Layer :=
  [Route None Star route_miss_handler; ErrorHandler error_interceptor].

(** The stack from the routes on: whatever [applicationRoutes(app)]
    registered, then the layers of [globalErrorHandler]. The middleware
    registered before the routes come first in the whole stack, [app_stack]
    below. *)
Definition router_stack (applicationRoutes : list Layer) : list Layer :=
  applicationRoutes ++ globalErrorHandler_layers.

(** ** Promises *)

(** The fate of a promise: never settled, or settled at some instant. *)
Inductive promise : Type :=
| Pending
| Fulfilled (at_time : nat)
| Rejected (at_time : nat) (reason : thrown).

Definition is_fulfilled (p : promise) : bool :=
  match p with Fulfilled _ => true | _ => false end.

Definition is_rejected (p : promise) : bool :=
  match p with Rejected _ _ => true | _ => false end.

(** The earliest rejection among the promises; of two rejections at the same
    instant the one listed first. *)
Fixpoint first_rejection (ps : list promise) : option (nat * thrown) :=
  match ps with
  | [] => None
  | Rejected t r :: ps' =>
      match first_rejection ps' with
      | Some (t', r') => if (t' <? t)%nat then Some (t', r') else Some (t, r)
      | None => Some (t, r)
      end
  | _ :: ps' => first_rejection ps'
  end.

Fixpoint last_fulfilment (ps : list promise) : nat :=
  match ps with
  | [] => O
  | Fulfilled t :: ps' => Nat.max t (last_fulfilment ps')
  | _ :: ps' => last_fulfilment ps'
  end.

(** [Promise.all(ps)]: rejected as soon as one of [ps] is, with its reason;
    fulfilled once all are; pending otherwise. *)
Definition Promise_all (ps : list promise) : promise :=
  match first_rejection ps with
  | Some (t, r) => Rejected t r
  | None =>
      if forallb is_fulfilled ps then Fulfilled (last_fulfilment ps)
      else Pending
  end.

(** [await p] *)
Definition await (p : promise) : M unit :=
  match p with
  | Fulfilled _ => ret tt
  | Rejected _ r => throw r
  | Pending => ([], Suspended)
  end.

(** A call of an [async] function whose promise is dropped: its effects take
    place, the caller goes on. *)
Definition floating {A} (m : M A) : M unit := (trace m, Return tt).

(** ** setupServer.ts: the class [ChattyServer] *)

(** What the process meets at run time: how the two [connect()] calls end,
    whether the port can be listened on, and the process id. *)
Record Env : Type := mkEnv {
  pub_connect : promise;
  sub_connect : promise;
  listening : bool;
  process_pid : Z
}.

(** The socket.io server returned by [createSocketIO]. *)
Inductive Server : Type := io.

Definition SERVER_PORT : Z := 5000.

Definition methods_allowed : list string :=
  ["GET"; "POST"; "PUT"; "DELETE"; "OPTIONS"].

(** [`${n}`] for an integer [n] *)
Definition template_of_Z (n : Z) : string :=
  DecimalString.NilZero.string_of_int (Z.to_int n).

(** [config.NODE_ENV !== 'development'] *)
Definition not_development (node_env : option string) : bool :=
  match node_env with
  | Some s => negb (String.eqb s "development")
  | None => true
  end.

Section ChattyServer.

Variable config : Config.

Definition cookieSession_options : CookieSessionOptions :=
  {| cs_name := "session";
     cs_keys := [SECRET_KEY_ONE config; SECRET_KEY_TWO config];
     cs_maxAge := 24 * 7 * 360000;
     cs_secure := not_development (NODE_ENV config) |}.

Definition cors_options : CorsOptions :=
  {| cors_origin := CLIENT_URL config;
     cors_credentials := Some true;
     cors_optionsSuccessStatus := Some 200;
     cors_methods := methods_allowed |}.

Definition securityMiddleWare : M unit :=
  emit (app_use (cookieSession cookieSession_options)) ;;
  emit (app_use hpp) ;;
  emit (app_use helmet) ;;
  emit (app_use (cors cors_options)).

Definition standardMiddleWare : M unit :=
  emit (app_use compression) ;;
  emit (app_use (json_parser "50mb")) ;;
  emit (app_use (urlencoded true "50mb")).

Definition routeMiddleWare : M unit :=
  emit applicationRoutes_call.

Definition globalErrorHandler : M unit :=
  emit app_all_star ;;
  emit app_use_error_handler.

Variable env : Env.

Definition createSocketIO : M Server :=
  emit (new_socketio_Server
          {| cors_origin := CLIENT_URL config;
             cors_credentials := None;
             cors_optionsSuccessStatus := None;
             cors_methods := methods_allowed |}) ;;
  emit (createClient (REDIS_HOST config)) ;;
  emit duplicate_client ;;
  emit (connect_call pubClient) ;;
  emit (connect_call subClient) ;;
  await (Promise_all [pub_connect env; sub_connect env]) ;;
  emit io_adapter ;;
  ret io.

Definition startHttpServer : M unit :=
  emit (log_info ("Server has started with process "
                  ++ template_of_Z (process_pid env))) ;;
  emit (httpServer_listen SERVER_PORT).

(** The callback handed to [listen]: it runs once the server is listening,
    after the synchronous remainder of [startServer]. *)
Definition listen_callback : M unit :=
  if listening env
  then emit (log_info ("Server is listening on port: "
                       ++ template_of_Z SERVER_PORT))
  else ret tt.

Definition socketIOConnection (_io : Server) : M unit :=
  emit socketIOConnection_call.

Definition startServer : M unit :=
  try_catch
    (emit new_http_Server ;;
     socketIO <- createSocketIO ;;
     startHttpServer ;;
     socketIOConnection socketIO ;;
     listen_callback)
    (fun error => emit (log_error error)).

Definition start : M unit :=
  securityMiddleWare ;;
  standardMiddleWare ;;
  routeMiddleWare ;;
  globalErrorHandler ;;
  floating startServer.

End ChattyServer.

(** ** The steps of the bootstrap sequence *)

Inductive step : Type :=
| SecurityWiring
| StandardWiring
| RouteWiring
| ErrorWiring
| ListenerStart
| GatewayAttach
| AdapterAttach.

(** The effect that carries out each step: the [app.use] calls of the
    wiring methods, [httpServer.listen] for the network listener,
    [new Server(httpServer, ...)] for the gateway bound to the HTTP server,
    [io.adapter(...)] for the broadcast adapter. *)
Definition step_of (e : event) : option step :=
  match e with
  | app_use (cookieSession _) | app_use hpp
  | app_use helmet | app_use (cors _) => Some SecurityWiring
  | app_use compression | app_use (json_parser _)
  | app_use (urlencoded _ _) => Some StandardWiring
  | applicationRoutes_call => Some RouteWiring
  | app_all_star | app_use_error_handler => Some ErrorWiring
  | httpServer_listen _ => Some ListenerStart
  | new_socketio_Server _ => Some GatewayAttach
  | io_adapter => Some AdapterAttach
  | _ => None
  end.

Definition step_eqb (a b : step) : bool :=
  match a, b with
  | SecurityWiring, SecurityWiring | StandardWiring, StandardWiring
  | RouteWiring, RouteWiring | ErrorWiring, ErrorWiring
  | ListenerStart, ListenerStart | GatewayAttach, GatewayAttach
  | AdapterAttach, AdapterAttach => true
  | _, _ => false
  end.

(** The steps a trace goes through, each listed once when it spans several
    consecutive effects. *)
Fixpoint steps (tr : list event) : list step :=
  match tr with
  | [] => []
  | e :: tr' =>
      match step_of e, steps tr' with
      | None, ss => ss
      | Some s, [] => [s]
      | Some s, s' :: ss => if step_eqb s s' then s' :: ss else s :: s' :: ss
      end
  end.

(** Position of the first effect of a trace that carries out a step. *)
Fixpoint first_position (s : step) (tr : list event) : option nat :=
  match tr with
  | [] => None
  | e :: tr' =>
      match step_of e with
      | Some s' => if step_eqb s s' then Some O
                   else option_map S (first_position s tr')
      | None => option_map S (first_position s tr')
      end
  end.

Definition reached (s : step) (tr : list event) : bool :=
  match first_position s tr with Some _ => true | None => false end.

(** Both steps are taken, the first one earlier. *)
Definition before (a b : step) (tr : list event) : bool :=
  match first_position a tr, first_position b tr with
  | Some i, Some j => (i <? j)%nat
  | _, _ => false
  end.

Definition is_log_error (e : event) : bool :=
  match e with log_error _ => true | _ => false end.

(** The service is running once it listens and the connection hook has been
    given the gateway. *)
Definition is_socketIOConnection_call (e : event) : bool :=
  match e with socketIOConnection_call => true | _ => false end.

Definition running (tr : list event) : bool :=
  reached ListenerStart tr && existsb is_socketIOConnection_call tr.

(** ** The trace of [start], in two parts *)

(** What [start] does up to the point where [createSocketIO] awaits the two
    links. *)
Definition until_await (config : Config) : list event :=
  trace (securityMiddleWare config ;; standardMiddleWare ;;
         routeMiddleWare ;; globalErrorHandler)
  ++ [new_http_Server;
      new_socketio_Server
        {| cors_origin := CLIENT_URL config;
           cors_credentials := None;
           cors_optionsSuccessStatus := None;
           cors_methods := methods_allowed |};
      createClient (REDIS_HOST config);
      duplicate_client;
      connect_call pubClient;
      connect_call subClient].

(** What follows, according to how the two links end. *)
Definition after_await (env : Env) : list event :=
  match Promise_all [pub_connect env; sub_connect env] with
  | Fulfilled _ =>
      [io_adapter;
       log_info ("Server has started with process "
                 ++ template_of_Z (process_pid env));
       httpServer_listen SERVER_PORT;
       socketIOConnection_call]
      ++ trace (listen_callback env)
  | Rejected _ cause => [log_error cause]
  | Pending => []
  end.

(** ** Statements of the specification, in its own words *)

(** The status code the specification declares for each kind. *)
Definition declared_statusCode (k : ErrorClass) : Z :=
  match k with
  | BadRequestError => 400
  | NotFoundError => 404
  | NotAuthorizedError => 401
  | FileTooLargeError => 413
  | ServerError => 503
  | JoinValidationError => 503
  end.

(** "security wiring -> standard wiring -> route wiring -> error wiring ->
    listener start -> gateway attach -> adapter attach" *)
Definition specified_order : list step :=
  [SecurityWiring; StandardWiring; RouteWiring; ErrorWiring;
   ListenerStart; GatewayAttach; AdapterAttach].

(** The order in which [start] takes the steps. *)
Definition order_of_start : list step :=
  [SecurityWiring; StandardWiring; RouteWiring; ErrorWiring;
   GatewayAttach; AdapterAttach; ListenerStart].

(** "Construction of any FailureKind requires a non-empty message" *)
Definition rejects_empty_message (k : ErrorClass) : Prop :=
  exists tr v, new_ k "" = (tr, Throw v).

(** "The HTTP listener is never started and the gateway is never attached,
    and the fatal cause is logged" *)
Definition aborted_before_gateway (tr : list event) : bool :=
  negb (running tr)
  && negb (reached ListenerStart tr)
  && negb (reached GatewayAttach tr)
  && existsb is_log_error tr.

(** ** Sample inputs *)

Definition sample_config : Config :=
  {| SECRET_KEY_ONE := Some "one";
     SECRET_KEY_TWO := Some "two";
     NODE_ENV := Some "development";
     CLIENT_URL := Some "http://localhost:3000";
     REDIS_HOST := Some "redis://localhost:6379" |}.

Definition links_up : Env :=
  {| pub_connect := Fulfilled 1;
     sub_connect := Fulfilled 2;
     listening := true;
     process_pid := 20576 |}.

Definition publish_link_down : Env :=
  {| pub_connect := Rejected 1 (OtherValue "ECONNREFUSED");
     sub_connect := Fulfilled 2;
     listening := true;
     process_pid := 20576 |}.


(** A route whose handler raises [new BadRequestError("x")]. *)
Definition failing_routes : list Layer :=
  [Route (Some POST) (Literal "/signup")
     (fun _ => e <- new_ BadRequestError "x" ;;
               throw (InstanceOfCustomError e))].

Definition signup : Request :=
  {| req_method := POST; req_originalUrl := "/signup"; req_path := "/signup" |}.


(** ** Further observations on traces and further sample inputs *)

Definition is_listen (e : event) : bool :=
  match e with httpServer_listen _ => true | _ => false end.

(** The calls that register something on the Express application. *)
Definition is_registration (e : event) : bool :=
  match e with
  | app_use _ | applicationRoutes_call
  | app_all_star | app_use_error_handler => true
  | _ => false
  end.

(** The registrations made by the four wiring methods, in the order in which
    [start] calls them. *)
Definition wiring (config : Config) : M unit :=
  securityMiddleWare config ;; standardMiddleWare ;;
  routeMiddleWare ;; globalErrorHandler.

(** A route that takes every request and raises [new K(message)]. *)
Definition raising_route (k : ErrorClass) (msg : string) : Layer :=
  Route None Star
    (fun _ => e <- new_ k msg ;; throw (InstanceOfCustomError e)).

Definition subscribe_link_pending : Env :=
  {| pub_connect := Fulfilled 1;
     sub_connect := Pending;
     listening := true;
     process_pid := 20576 |}.

(** A route that answers, one that passes the request on, and one that
    raises something that is no [CustomError]. *)
Definition answering_routes : list Layer :=
  [Route (Some GET) (Literal "/health")
     (fun _ => emit (res_status 200) ;; emit (res_json []))].


Definition crashing_routes : list Layer :=
  [Route (Some GET) (Literal "/health")
     (fun _ => throw (OtherValue "TypeError"))].

Definition health : Request :=
  {| req_method := GET; req_originalUrl := "/health"; req_path := "/health" |}.

(** ** The middleware registered before the routes

    [securityMiddleWare] and [standardMiddleWare] hand seven third-party
    middleware to [app.use]; a request walks them, in the order of
    registration, before it comes to the routes. *)


(** Whether Express takes a thrown value for a failure. *)
Definition is_failure (v : thrown) : bool :=
  match v with
  | InstanceOfCustomError _ | OtherValue _ => true
  | RouteSignal | RouterSignal | FalsyValue => false
  end.














(** * Properties *)

(** ** The monad *)

Lemma bind_ret_l {A B} (a : A) (k : A -> M B) : bind (ret a) k = k a.
Proof. unfold bind, ret. destruct (k a) as [tr c]. reflexivity. Qed.

Lemma bind_ret_r {A} (m : M A) : bind m ret = m.
Proof.
  destruct m as [tr [a|v|]]; cbn; [rewrite app_nil_r|..]; reflexivity.
Qed.

Lemma bind_assoc {A B C} (m : M A) (f : A -> M B) (g : B -> M C) :
  bind (bind m f) g = bind m (fun a => bind (f a) g).
Proof.
  destruct m as [tr [a|v|]]; cbn; try reflexivity.
  destruct (f a) as [tr1 [b|v|]]; cbn; try reflexivity.
  destruct (g b) as [tr2 c]. rewrite app_assoc. reflexivity.
Qed.

(** ** The error model *)

(** C1. For each of the six error classes and every message, serialising a
    freshly constructed instance performs no effect and returns exactly
    [{message, statusCode, status: "error"}], where [message] is the string
    given to the constructor and [statusCode] is 400, 404, 401, 413, 503,
    503 respectively, whatever the message is. *)
Theorem serializeErrors_of_new (k : ErrorClass) (msg : string) :
  (e <- new_ k msg ;; serializeErrors e)
  = ([], Return {| ie_message := msg;
                   ie_statusCode := declared_statusCode k;
                   ie_status := "error" |}).
Proof. destruct k; reflexivity. Qed.

(** C9. [serializeErrors] is pure: on every instance it performs no effect,
    returns normally, and a second call on the same instance returns the
    same object as the first. *)
Theorem serializeErrors_pure (this : CustomError) :
  exists o : IError,
    serializeErrors this = ([], Return o)
    /\ (a <- serializeErrors this ;; b <- serializeErrors this ;; ret (a, b))
       = ([], Return (o, o)).
Proof.
  eexists. split.
  - unfold serializeErrors, ret. reflexivity.
  - reflexivity.
Qed.

(** C5, as the specification words it, fails: [new BadRequestError("")]
    returns an instance whose message is empty; it does not throw. *)
Lemma new_accepts_empty_message :
  new_ BadRequestError ""
  = ([], Return {| class_of := BadRequestError; message := "";
                   statusCode := 400; status := "error" |})
  /\ ~ rejects_empty_message BadRequestError.
Proof.
  split; [reflexivity|].
  intros (tr & v & H). discriminate H.
Qed.

(** C5, amended. Constructing any of the six classes succeeds for every
    message, the empty one included, without effect; the instance carries the
    message as given, and its [statusCode] and [status] are those of its
    class, which the caller cannot supply. *)
Theorem new_total (k : ErrorClass) (msg : string) :
  exists e : CustomError,
    new_ k msg = ([], Return e)
    /\ class_of e = k
    /\ message e = msg
    /\ statusCode e = declared_statusCode k
    /\ status e = "error".
Proof.
  eexists. split; [reflexivity|].
  destruct k; repeat split.
Qed.

(** ** The error dispatcher *)

(** Layers that do not take the request are walked past. *)
Lemma handle_skip (skipped rest : list Layer) (req : Request) :
  forallb (fun l => negb (layer_accepts l req)) skipped = true ->
  handle (skipped ++ rest) None req = handle rest None req.
Proof.
  induction skipped as [|l skipped IH]; intros Hnone; [reflexivity|].
  cbn [forallb] in Hnone. apply andb_true_iff in Hnone as [Hl Hrest].
  apply negb_true_iff in Hl.
  destruct l as [m p h|h]; cbn [app handle].
  - cbn [layer_accepts] in Hl. rewrite Hl. auto.
  - auto.
Qed.

(** Route layers are walked past while a failure is pending: a failure
    raised among the routes reaches the layers of [globalErrorHandler]. *)
Lemma handle_pending_skip (routes rest : list Layer) (v : thrown)
    (req : Request) :
  forallb is_route routes = true ->
  handle (routes ++ rest) (Some v) req = handle rest (Some v) req.
Proof.
  induction routes as [|l routes IH]; intros Hroutes; [reflexivity|].
  cbn [forallb] in Hroutes. apply andb_true_iff in Hroutes as [Hl Hrest].
  destruct l as [m p h|h]; [|discriminate Hl].
  cbn [app handle]. auto.
Qed.

(** C2. When a failure reaches the layers of [globalErrorHandler], it is
    logged first, before anything is written to the response; and when it is
    an instance of [CustomError], the response then sent has the instance's
    [statusCode] as status and its [serializeErrors()] as body, and nothing
    else happens. *)
Theorem error_interceptor_responds (req : Request) :
  (forall v : thrown,
      exists rest : list event,
        handle globalErrorHandler_layers (Some v) req = log_error v :: rest)
  /\ (forall e : CustomError,
      exists body : IError,
        serializeErrors e = ([], Return body)
        /\ handle globalErrorHandler_layers (Some (InstanceOfCustomError e)) req
           = [log_error (InstanceOfCustomError e);
              res_status (statusCode e);
              res_json (IError_to_json body)]
        /\ sent_response
             (handle globalErrorHandler_layers
                     (Some (InstanceOfCustomError e)) req)
           = Some {| resp_status := statusCode e;
                     resp_body := IError_to_json body |}).
Proof.
  split.
  - intros v. destruct v; eexists; reflexivity.
  - intros e. eexists. repeat split.
Qed.

(** A handler that raises [BadRequestError("x")] produces status 400 and the
    body [{"message":"x","statusCode":400,"status":"error"}]. *)
Example bad_request_raised_in_handler :
  sent_response (handle (router_stack failing_routes) None signup)
  = Some {| resp_status := 400;
            resp_body := [("message", JString "x");
                          ("statusCode", JNumber 400);
                          ("status", JString "error")] |}.
Proof. reflexivity. Qed.


(** C4. A failure that is not an instance of [CustomError] is logged and
    handed on by [next()]: the interceptor returns normally, writes nothing
    to the response, and the request goes on to what follows the stack. *)
Theorem error_interceptor_passes_on (description : string) (req : Request) :
  error_interceptor (OtherValue description) req
  = ([log_error (OtherValue description); next_call], Return tt)
  /\ existsb touches_response
       (trace (error_interceptor (OtherValue description) req)) = false
  /\ handle globalErrorHandler_layers (Some (OtherValue description)) req
     = [log_error (OtherValue description); next_call; finalhandler None]
  /\ sent_response
       (handle globalErrorHandler_layers (Some (OtherValue description)) req)
     = None.
Proof. repeat split. Qed.

(** ** Promises *)

Lemma first_rejection_In (ps : list promise) (t : nat) (r : thrown) :
  first_rejection ps = Some (t, r) -> In (Rejected t r) ps.
Proof.
  revert t r. induction ps as [|p ps IH]; intros t r H; [discriminate H|].
  destruct p as [|t0|t0 r0]; cbn [first_rejection] in H.
  - right. auto.
  - right. auto.
  - destruct (first_rejection ps) as [[t' r']|] eqn:E.
    + destruct (t' <? t0)%nat; inversion H; subst.
      * right. auto.
      * left. reflexivity.
    + inversion H; subst. left. reflexivity.
Qed.

Lemma first_rejection_None (ps : list promise) :
  first_rejection ps = None <-> existsb is_rejected ps = false.
Proof.
  induction ps as [|p ps IH]; [split; reflexivity|].
  destruct p as [|t0|t0 r0]; cbn [first_rejection existsb is_rejected orb];
    try exact IH.
  split; [|discriminate].
  destruct (first_rejection ps) as [[t' r']|];
    [destruct (t' <? t0)%nat|]; discriminate.
Qed.

(** [Promise.all] is rejected exactly when one of the promises is, and then
    with the reason of one of them. *)
Lemma Promise_all_rejected (ps : list promise) :
  existsb is_rejected ps = true ->
  exists t r, Promise_all ps = Rejected t r /\ In (Rejected t r) ps.
Proof.
  intros H. unfold Promise_all.
  destruct (first_rejection ps) as [[t r]|] eqn:E.
  - exists t, r. split; [reflexivity|]. apply first_rejection_In, E.
  - apply first_rejection_None in E. congruence.
Qed.

(** [Promise.all] is fulfilled only when every one of the promises is. *)
Lemma Promise_all_fulfilled (ps : list promise) (t : nat) :
  Promise_all ps = Fulfilled t -> forallb is_fulfilled ps = true.
Proof.
  unfold Promise_all.
  destruct (first_rejection ps) as [[t' r']|]; [discriminate|].
  destruct (forallb is_fulfilled ps); [reflexivity|discriminate].
Qed.

Lemma Promise_all_of_fulfilled (ps : list promise) :
  forallb is_fulfilled ps = true ->
  Promise_all ps = Fulfilled (last_fulfilment ps).
Proof.
  intros H. unfold Promise_all. rewrite H.
  replace (first_rejection ps) with (@None (nat * thrown)); [reflexivity|].
  symmetry. apply first_rejection_None.
  induction ps as [|p ps IH]; [reflexivity|].
  cbn [forallb] in H. apply andb_true_iff in H as [Hp Hps].
  destruct p; try discriminate Hp. cbn. auto.
Qed.

Example Promise_all_first_rejection_wins :
  Promise_all [Rejected 5 (OtherValue "publish"); Fulfilled 1;
               Rejected 3 (OtherValue "subscribe")]
  = Rejected 3 (OtherValue "subscribe").
Proof. reflexivity. Qed.

Example Promise_all_waits_for_all :
  Promise_all [Fulfilled 1; Pending] = Pending.
Proof. reflexivity. Qed.

(** ** The bootstrap *)

Lemma start_trace (config : Config) (env : Env) :
  trace (start config env) = until_await config ++ after_await env.
Proof.
  unfold after_await, start, startServer, createSocketIO, listen_callback.
  destruct (Promise_all [pub_connect env; sub_connect env]) as [|t|t r];
    try reflexivity.
  destruct (listening env); reflexivity.
Qed.

(** [start] itself always returns: the promise of [startServer] is dropped. *)
Lemma start_returns (config : Config) (env : Env) :
  result (start config env) = Return tt.
Proof. reflexivity. Qed.

(** C6, as the specification words it, fails: with both links up the
    listener is started last, after the gateway and the adapter have been
    attached, not before them. *)
Lemma listener_not_started_first :
  steps (trace (start sample_config links_up)) <> specified_order
  /\ before ListenerStart GatewayAttach
       (trace (start sample_config links_up)) = false
  /\ before ListenerStart AdapterAttach
       (trace (start sample_config links_up)) = false.
Proof. repeat split. vm_compute. discriminate. Qed.

(** C6, amended. When both links come up, [start] goes through security
    wiring, standard wiring, route wiring, error wiring, gateway attach,
    adapter attach and listener start, in this order: the network listener
    is started after the gateway and the broadcast adapter are attached. *)
Theorem start_order (config : Config) (env : Env) :
  is_fulfilled (pub_connect env) = true ->
  is_fulfilled (sub_connect env) = true ->
  steps (trace (start config env)) = order_of_start
  /\ before GatewayAttach AdapterAttach (trace (start config env)) = true
  /\ before AdapterAttach ListenerStart (trace (start config env)) = true
  /\ before GatewayAttach ListenerStart (trace (start config env)) = true
  /\ running (trace (start config env)) = true.
Proof.
  intros Hpub Hsub. rewrite start_trace. unfold after_await.
  rewrite Promise_all_of_fulfilled
    by (cbn [forallb]; rewrite Hpub, Hsub; reflexivity).
  unfold listen_callback. destruct (listening env); repeat split.
Qed.

Lemma start_order_witness :
  steps (trace (start sample_config links_up)) = order_of_start.
Proof.
  refine (proj1 (start_order sample_config links_up _ _)); reflexivity.
Defined.

(** C7, as the specification words it, fails: when the publish link is
    refused the gateway has already been bound to the HTTP server. *)
Lemma gateway_attached_before_links :
  aborted_before_gateway (trace (start sample_config publish_link_down))
  = false
  /\ reached GatewayAttach (trace (start sample_config publish_link_down))
     = true.
Proof. split; reflexivity. Qed.

(** C7, amended. When establishing the publish link or the subscribe link
    fails, [start] never gets to the running state: the listener is not
    started, the adapter is not attached, the connection hook is not run,
    and the last thing done is to log the reason of a failed link. The
    gateway, however, has been bound to the HTTP server before the links
    were tried. *)
Theorem start_aborts_on_link_failure (config : Config) (env : Env) :
  existsb is_rejected [pub_connect env; sub_connect env] = true ->
  running (trace (start config env)) = false
  /\ reached ListenerStart (trace (start config env)) = false
  /\ reached AdapterAttach (trace (start config env)) = false
  /\ existsb is_socketIOConnection_call (trace (start config env)) = false
  /\ reached GatewayAttach (trace (start config env)) = true
  /\ exists (t : nat) (cause : thrown),
       In (Rejected t cause) [pub_connect env; sub_connect env]
       /\ trace (start config env) = until_await config ++ [log_error cause].
Proof.
  intros Hfail. rewrite start_trace. unfold after_await.
  destruct (Promise_all_rejected _ Hfail) as (t & cause & Hall & Hin).
  rewrite Hall. repeat split.
  exists t, cause. split; [exact Hin|reflexivity].
Qed.

Lemma start_aborts_on_link_failure_witness :
  running (trace (start sample_config publish_link_down)) = false.
Proof.
  refine (proj1 (start_aborts_on_link_failure
                   sample_config publish_link_down _)).
  reflexivity.
Defined.

(** C8. The broadcast adapter is attached only when both the publish link
    and the subscribe link have been established: both [connect()] calls
    have been made and awaited, and [io.adapter] is the first thing done
    after them. *)
Theorem adapter_after_both_links (config : Config) (env : Env) :
  reached AdapterAttach (trace (start config env)) = true ->
  is_fulfilled (pub_connect env) = true
  /\ is_fulfilled (sub_connect env) = true
  /\ exists pre post : list event,
       trace (start config env)
       = pre ++ connect_call pubClient :: connect_call subClient
             :: io_adapter :: post
       /\ reached AdapterAttach pre = false
       /\ reached AdapterAttach post = false.
Proof.
  rewrite start_trace. unfold after_await.
  destruct (Promise_all [pub_connect env; sub_connect env]) as [|t|t r] eqn:E;
    intros H; try discriminate H.
  apply Promise_all_fulfilled in E. cbn [forallb] in E.
  apply andb_true_iff in E as [Hpub E]. apply andb_true_iff in E as [Hsub _].
  split; [exact Hpub|]. split; [exact Hsub|].
  eexists (firstn 14 (until_await config)), _.
  split; [reflexivity|]. split; [reflexivity|].
  unfold listen_callback. destruct (listening env); reflexivity.
Qed.

Lemma adapter_after_both_links_witness :
  is_fulfilled (pub_connect links_up) = true
  /\ is_fulfilled (sub_connect links_up) = true.
Proof.
  assert (H := adapter_after_both_links sample_config links_up eq_refl).
  exact (conj (proj1 H) (proj1 (proj2 H))).
Defined.

(** ** Configuration *)

(** C10. The session cookie handed to [cookieSession] by
    [securityMiddleWare] has a maximal age of 24 * 7 * 360000 = 60,480,000
    milliseconds, that is 16.8 hours; it is not the 604,800,000 milliseconds
    of seven days of twenty-four hours. *)
Theorem session_cookie_maxAge (config : Config) :
  (exists rest : list event,
      trace (securityMiddleWare config)
      = app_use (cookieSession (cookieSession_options config)) :: rest)
  /\ cs_maxAge (cookieSession_options config) = 24 * 7 * 360000
  /\ cs_maxAge (cookieSession_options config) = 60480000
  /\ 10 * cs_maxAge (cookieSession_options config) = 168 * (60 * 60 * 1000)
  /\ 7 * 24 * (60 * 60 * 1000) = 604800000
  /\ cs_maxAge (cookieSession_options config) <> 604800000.
Proof.
  split; [eexists; reflexivity|].
  cbn [cs_maxAge cookieSession_options]. repeat split; lia.
Qed.

(** * Further properties of the code *)

(** ** The bootstrap, whatever happens to the links *)

Lemma rejected_In_existsb (ps : list promise) (t : nat) (r : thrown) :
  In (Rejected t r) ps -> existsb is_rejected ps = true.
Proof.
  intros Hin. apply existsb_exists. exists (Rejected t r). split; auto.
Qed.

Lemma Promise_all_pending (ps : list promise) :
  existsb is_rejected ps = false ->
  forallb is_fulfilled ps = false ->
  Promise_all ps = Pending.
Proof.
  intros Hrej Hful. unfold Promise_all.
  apply first_rejection_None in Hrej. rewrite Hrej, Hful. reflexivity.
Qed.

(** X1. When no link is refused but one of them never comes up, [start]
    stops for good at the [await]: it has wired the application, created the
    HTTP server and the gateway and asked for both connections, and then
    neither attaches the adapter nor listens nor logs anything. [start]
    itself has returned all the same. *)
Theorem start_hangs_on_pending_link (config : Config) (env : Env) :
  existsb is_rejected [pub_connect env; sub_connect env] = false ->
  forallb is_fulfilled [pub_connect env; sub_connect env] = false ->
  trace (start config env) = until_await config
  /\ reached AdapterAttach (trace (start config env)) = false
  /\ reached ListenerStart (trace (start config env)) = false
  /\ existsb is_log_error (trace (start config env)) = false
  /\ result (start config env) = Return tt
  /\ result (startServer config env) = Suspended.
Proof.
  intros Hrej Hful.
  assert (Hall := Promise_all_pending _ Hrej Hful).
  rewrite start_trace. unfold after_await. rewrite Hall, app_nil_r.
  repeat split.
  unfold startServer, createSocketIO. rewrite Hall. reflexivity.
Qed.

Lemma start_hangs_on_pending_link_witness :
  trace (start sample_config subscribe_link_pending)
  = until_await sample_config.
Proof.
  refine (proj1 (start_hangs_on_pending_link
                   sample_config subscribe_link_pending _ _));
    reflexivity.
Defined.

(** X2. [startServer] never throws: whatever the links do, it returns or
    stays suspended, and [start] logs an error exactly when one of the two
    links is refused. *)
Theorem startServer_never_throws (config : Config) (env : Env) :
  (forall v : thrown, result (startServer config env) <> Throw v)
  /\ (existsb is_log_error (trace (start config env)) = true
      <-> existsb is_rejected [pub_connect env; sub_connect env] = true).
Proof.
  split.
  - intros v. unfold startServer, createSocketIO, listen_callback.
    destruct (Promise_all [pub_connect env; sub_connect env]) as [|t|t r];
      try discriminate.
    destruct (listening env); discriminate.
  - rewrite start_trace. unfold after_await, Promise_all, listen_callback.
    destruct (first_rejection [pub_connect env; sub_connect env])
      as [[t r]|] eqn:E.
    + split; [intros _|reflexivity].
      apply first_rejection_In in E. exact (rejected_In_existsb _ _ _ E).
    + apply first_rejection_None in E. rewrite E.
      split; [|discriminate].
      destruct (forallb is_fulfilled [pub_connect env; sub_connect env]);
        [destruct (listening env)|]; discriminate.
Qed.

(** X3. The server listens at most once, only on port 5000, and exactly
    when both links have come up. *)
Theorem listens_iff_links_up (config : Config) (env : Env) :
  filter is_listen (trace (start config env))
  = if forallb is_fulfilled [pub_connect env; sub_connect env]
    then [httpServer_listen 5000]
    else [].
Proof.
  rewrite start_trace. unfold after_await, listen_callback.
  destruct (forallb is_fulfilled [pub_connect env; sub_connect env]) eqn:E.
  - rewrite (Promise_all_of_fulfilled _ E).
    destruct (listening env); reflexivity.
  - destruct (Promise_all [pub_connect env; sub_connect env])
      as [|t|t r] eqn:P; try reflexivity.
    apply Promise_all_fulfilled in P. congruence.
Qed.

(** X4. Whatever happens to the links, the application receives the same ten
    registrations, all of them before the HTTP server is created: the four
    security middleware, the three standard ones, the routes, the catch-all
    and, last, the error handler. Nothing is registered later. *)
Theorem wiring_precedes_server (config : Config) (env : Env) :
  exists rest : list event,
    trace (start config env) = trace (wiring config) ++ new_http_Server :: rest
    /\ existsb is_registration rest = false
    /\ trace (wiring config)
       = [app_use (cookieSession (cookieSession_options config));
          app_use hpp;
          app_use helmet;
          app_use (cors (cors_options config));
          app_use compression;
          app_use (json_parser "50mb");
          app_use (urlencoded true "50mb");
          applicationRoutes_call;
          app_all_star;
          app_use_error_handler].
Proof.
  rewrite start_trace. unfold after_await, listen_callback.
  destruct (Promise_all [pub_connect env; sub_connect env]) as [|t|t r];
    [| destruct (listening env) |];
    eexists; (split; [reflexivity|]); split; reflexivity.
Qed.

(** X5. The session cookie is marked secure unless [NODE_ENV] is exactly
    ["development"]; in particular it is secure when [NODE_ENV] is not set. *)
Theorem cookie_secure_unless_development (config : Config) :
  cs_secure (cookieSession_options config) = false
  <-> NODE_ENV config = Some "development".
Proof.
  unfold cookieSession_options, not_development. cbn [cs_secure].
  destruct (NODE_ENV config) as [s|].
  - rewrite negb_false_iff, String.eqb_eq.
    split; [intros ->; reflexivity|intros H; injection H; auto].
  - split; discriminate.
Qed.

(** ** Requests through the routes and the two handlers *)

Lemma sent_response_from_untouched (tr rest : list event) (current : Z) :
  existsb touches_response tr = false ->
  sent_response_from current (tr ++ rest) = sent_response_from current rest.
Proof.
  induction tr as [|e tr IH]; intros H; [reflexivity|].
  cbn [existsb] in H. apply orb_false_iff in H as [He Htr].
  destruct e; try discriminate He; cbn [app sent_response_from]; auto.
Qed.

(** A failure thrown by the first route that takes the request goes straight
    to the layers of [globalErrorHandler]: the routes after it are walked
    past. *)
Lemma route_failure_reaches_interceptor
    (pre post : list Layer) (m : option Method) (p : PathPattern)
    (h : Request -> M unit) (req : Request) (tr : list event) (v : thrown) :
  forallb (fun l => negb (layer_accepts l req)) pre = true ->
  route_matches m p req = true ->
  h req = (tr, Throw v) ->
  is_failure v = true ->
  forallb is_route post = true ->
  handle (router_stack (pre ++ Route m p h :: post)) None req
  = tr ++ handle globalErrorHandler_layers (Some v) req.
Proof.
  intros Hpre Hm Hh Hv Hpost. unfold router_stack.
  rewrite <- app_assoc, (handle_skip _ _ _ Hpre).
  cbn [app handle]. rewrite Hm, Hh.
  destruct v; try discriminate Hv;
    rewrite (handle_pending_skip _ _ _ _ Hpost); reflexivity.
Qed.

(** X6. When the first route that takes a request throws an instance of
    [CustomError] before writing to the response, the client receives that
    instance's [statusCode] as status and its serialisation as body; no later
    route and not the catch-all gets to answer. *)
Theorem custom_failure_in_route_answered
    (pre post : list Layer) (m : option Method) (p : PathPattern)
    (h : Request -> M unit) (req : Request) (tr : list event)
    (e : CustomError) :
  forallb (fun l => negb (layer_accepts l req)) pre = true ->
  route_matches m p req = true ->
  h req = (tr, Throw (InstanceOfCustomError e)) ->
  existsb touches_response tr = false ->
  forallb is_route post = true ->
  handle (router_stack (pre ++ Route m p h :: post)) None req
  = tr ++ [log_error (InstanceOfCustomError e);
           res_status (statusCode e);
           res_json [("message", JString (message e));
                     ("statusCode", JNumber (statusCode e));
                     ("status", JString (status e))]]
  /\ sent_response
       (handle (router_stack (pre ++ Route m p h :: post)) None req)
     = Some {| resp_status := statusCode e;
               resp_body := [("message", JString (message e));
                             ("statusCode", JNumber (statusCode e));
                             ("status", JString (status e))] |}.
Proof.
  intros Hpre Hm Hh Htr Hpost.
  rewrite (route_failure_reaches_interceptor
             _ _ _ _ _ _ _ _ Hpre Hm Hh eq_refl Hpost).
  split; [reflexivity|].
  unfold sent_response. rewrite (sent_response_from_untouched _ _ _ Htr).
  reflexivity.
Qed.

Lemma custom_failure_in_route_answered_witness :
  sent_response (handle (router_stack failing_routes) None signup)
  = Some {| resp_status := 400;
            resp_body := [("message", JString "x");
                          ("statusCode", JNumber 400);
                          ("status", JString "error")] |}.
Proof.
  refine (proj2 (custom_failure_in_route_answered
                   [] [] (Some POST) (Literal "/signup") _ signup []
                   {| class_of := BadRequestError; message := "x";
                      statusCode := 400; status := "error" |}
                   _ _ _ _ _));
    reflexivity.
Defined.

(** X7. When the first route that takes a request throws a failure that is
    no [CustomError], the failure is logged once and then lost: [next()] is
    called without it, so that Express's final handler is reached with no
    failure pending, and none of the application's handlers sends a
    response. *)
Theorem unrecognised_failure_in_route_unanswered
    (pre post : list Layer) (m : option Method) (p : PathPattern)
    (h : Request -> M unit) (req : Request) (tr : list event)
    (description : string) :
  forallb (fun l => negb (layer_accepts l req)) pre = true ->
  route_matches m p req = true ->
  h req = (tr, Throw (OtherValue description)) ->
  existsb touches_response tr = false ->
  forallb is_route post = true ->
  handle (router_stack (pre ++ Route m p h :: post)) None req
  = tr ++ [log_error (OtherValue description); next_call; finalhandler None]
  /\ sent_response
       (handle (router_stack (pre ++ Route m p h :: post)) None req)
     = None.
Proof.
  intros Hpre Hm Hh Htr Hpost.
  rewrite (route_failure_reaches_interceptor
             _ _ _ _ _ _ _ _ Hpre Hm Hh eq_refl Hpost).
  split; [reflexivity|].
  unfold sent_response. rewrite (sent_response_from_untouched _ _ _ Htr).
  reflexivity.
Qed.

Lemma unrecognised_failure_in_route_unanswered_witness :
  handle (router_stack crashing_routes) None health
  = [log_error (OtherValue "TypeError"); next_call; finalhandler None].
Proof.
  refine (proj1 (unrecognised_failure_in_route_unanswered
                   [] [] (Some GET) (Literal "/health") _ health []
                   "TypeError" _ _ _ _ _));
    reflexivity.
Defined.

(** X8. When the first route that takes a request returns or stays suspended
    without calling [next()], the walk ends there: what the application does
    for the request is what that handler did, and neither the catch-all nor
    the error handler runs. *)
Theorem answering_route_ends_walk
    (pre post : list Layer) (m : option Method) (p : PathPattern)
    (h : Request -> M unit) (req : Request) :
  forallb (fun l => negb (layer_accepts l req)) pre = true ->
  route_matches m p req = true ->
  (forall v : thrown, result (h req) <> Throw v) ->
  existsb is_next_call (trace (h req)) = false ->
  handle (router_stack (pre ++ Route m p h :: post)) None req
  = trace (h req).
Proof.
  intros Hpre Hm Hres Hnext. unfold router_stack.
  rewrite <- app_assoc, (handle_skip _ _ _ Hpre).
  cbn [app handle]. rewrite Hm.
  destruct (h req) as [tr [[]|v|]]; cbn [trace fst] in *.
  - rewrite Hnext. reflexivity.
  - exfalso. exact (Hres v eq_refl).
  - reflexivity.
Qed.

Lemma answering_route_ends_walk_witness :
  handle (router_stack answering_routes) None health
  = [res_status 200; res_json []].
Proof.
  refine (answering_route_ends_walk
            [] [] (Some GET) (Literal "/health") _ health _ _ _ _);
    try reflexivity.
  intros v. discriminate.
Defined.




(** ** The error classes on the wire *)

(** X11. Raising [new K(message)] in a handler, for any of the six classes
    [K], any message and any request, produces a response whose status is the
    status code of [K], a 4xx or 5xx code, and whose body is
    [{message, statusCode, status: "error"}] with the same code. *)
Theorem raised_error_response (k : ErrorClass) (msg : string)
    (req : Request) :
  sent_response (handle (router_stack [raising_route k msg]) None req)
  = Some {| resp_status := statusCode_initialiser k;
            resp_body := [("message", JString msg);
                          ("statusCode",
                           JNumber (statusCode_initialiser k));
                          ("status", JString "error")] |}
  /\ 400 <= statusCode_initialiser k <= 599.
Proof.
  destruct k; (split; [reflexivity|]); cbn; unfold HTTP_STATUS.BAD_REQUEST,
    HTTP_STATUS.NOT_FOUND, HTTP_STATUS.UNAUTHORIZED,
    HTTP_STATUS.REQUEST_TOO_LONG, HTTP_STATUS.SERVICE_UNAVAILABLE; lia.
Qed.

(** X12. The serialisation does not carry the class. Two freshly built
    errors serialise alike exactly when their messages are equal and their
    classes are the same or are [ServerError] and [JoinValidationError],
    which share the code 503. *)
Theorem serialisations_coincide_iff (k1 k2 : ErrorClass) (m1 m2 : string) :
  (e <- new_ k1 m1 ;; serializeErrors e)
  = (e <- new_ k2 m2 ;; serializeErrors e)
  <-> m1 = m2
      /\ (k1 = k2
          \/ (k1 = ServerError /\ k2 = JoinValidationError)
          \/ (k1 = JoinValidationError /\ k2 = ServerError)).
Proof.
  split.
  - intros H.
    assert (Hm : m1 = m2) by (destruct k1, k2; cbn in H; congruence).
    split; [exact Hm|].
    destruct k1, k2; cbn in H;
      solve [ left; reflexivity
            | right; left; split; reflexivity
            | right; right; split; reflexivity
            | discriminate H ].
  - intros [-> [-> | [[-> ->] | [-> ->]]]]; reflexivity.
Qed.

(** ** The catch-all *)

Lemma length_append (s t : string) :
  String.length (s ++ t) = (String.length s + String.length t)%nat.
Proof. induction s as [|c s IH]; cbn; [|rewrite IH]; reflexivity. Qed.

Lemma append_cancel_r (s1 s2 t : string) :
  (s1 ++ t = s2 ++ t)%string -> s1 = s2.
Proof.
  revert s2. induction s1 as [|c1 s1 IH]; intros [|c2 s2] H.
  - reflexivity.
  - apply (f_equal String.length) in H. cbn in H.
    rewrite length_append in H. lia.
  - apply (f_equal String.length) in H. cbn in H.
    rewrite length_append in H. lia.
  - cbn in H. injection H as Hc Hs. rewrite Hc, (IH _ Hs). reflexivity.
Qed.

(** X13. What the catch-all sends depends on the original URL of the request
    and on nothing else, neither the method nor the path that was matched;
    and requests with different original URLs get different bodies. *)
Theorem route_miss_determined_by_originalUrl (r1 r2 : Request) :
  route_miss_handler r1 = route_miss_handler r2
  <-> req_originalUrl r1 = req_originalUrl r2.
Proof.
  unfold route_miss_handler. split.
  - intros H. cbn in H. injection H as H.
    exact (append_cancel_r _ _ _ H).
  - intros ->. reflexivity.
Qed.



(** ** The catch-all behind the middleware *)






